(** * mavros_extras / log_transfer plugin: a shallow embedding

    Source: [src/mavros_extras/src/plugins/log_transfer.cpp].

    The plugin is a class with a handful of private fields and nine
    callbacks.  Every callback runs to completion on the plugin object, so
    it is embedded as a computation in a state-and-exception monad over a
    record of the plugin's fields.  The collaborators the plugin only calls
    (the two actionlib servers, the FCU link) are interfaces here, and every
    call that leaves the plugin is also appended to a chronological trace. *)

From Stdlib Require Import NArith List String Bool Lia.
From Stdlib.Strings Require Import Byte.
Import ListNotations.

Set Implicit Arguments.

(** ** Wire and ROS message types

    All integer fields are unsigned (uint8/16/32) and are only ever copied,
    so they are kept as [N]. *)

Module Time.
Record t := mk { sec : N; nsec : N }.
End Time.

(** mavlink::common::msg::LOG_ENTRY *)
Module LOG_ENTRY.
Record t := mk { id : N; num_logs : N; last_log_num : N; time_utc : N; size : N }.
End LOG_ENTRY.

(** mavlink::common::msg::LOG_DATA.  [data] is a [std::array<uint8_t, N>]:
    its [max_size()] is its length. *)
Module LOG_DATA.
Record t := mk { id : N; ofs : N; count : N; data : list byte }.
Definition max_size (ld : t) : N := N.of_nat (List.length (data ld)).
End LOG_DATA.

(** mavros_msgs/LogEntry *)
Module LogEntry.
Record t := mk { header_stamp : Time.t; id : N; num_logs : N;
                   last_log_num : N; time_utc : Time.t; size : N }.
End LogEntry.

(** mavros_msgs/LogData *)
Module LogData.
Record t := mk { header_stamp : Time.t; id : N; offset : N; data : list byte }.
End LogData.

(** mavros_msgs/LogRequestList ([end] is a keyword, hence [end_]) *)
Module LogRequestList.
Record Request := mkReq { start : N; end_ : N }.
Record Response := mkRes { success : bool }.
End LogRequestList.

(** mavros_msgs/LogRequestData *)
Module LogRequestData.
Record Request := mkReq { id : N; offset : N; count : N }.
Record Response := mkRes { success : bool }.
End LogRequestData.

(** mavros_msgs/LogRequestEnd *)
Module LogRequestEnd.
Record Request := mkReq { }.
Record Response := mkRes { success : bool }.
End LogRequestEnd.

(** Modelled from the spec: the action declarations GetLogList.action and
    GetLog.action are not part of the source tree; the goals carry the
    fields the spec lists (ListGoal: start, end; DataGoal: id, offset,
    count) and the results the [success] field the handlers assign. *)
Module GetLogList.
Record Goal := mkGoal { start : N; end_ : N }.
Record Result := mkResult { success : bool }.
End GetLogList.

Module GetLog.
Record Goal := mkGoal { id : N; offset : N; count : N }.
Record Result := mkResult { success : bool }.
End GetLog.

(** The three outbound commands, each with the target set by
    [msg_set_target]. *)
Inductive MavMsg : Type :=
| LOG_REQUEST_LIST (target_system target_component start end_ : N)
| LOG_REQUEST_DATA (target_system target_component id ofs count : N)
| LOG_REQUEST_END (target_system target_component : N).

(** The part of [UAS] the plugin reads. *)
Record UAS := mkUAS { get_tgt_system : N; get_tgt_component : N }.

(** ** Collaborator interfaces *)

(** [actionlib::SimpleActionServer], restricted to the four members the
    plugin calls.  [acceptNewGoal] returns a null pointer as [None].
    The law is actionlib's: a goal reported preempted is terminal. *)
Class SimpleActionServer (Srv Goal Result : Type) := {
  acceptNewGoal : Srv -> option Goal * Srv;
  isActive : Srv -> bool;
  isPreemptRequested : Srv -> bool;
  setPreempted : Result -> string -> Srv -> Srv;
  setPreempted_not_active : forall r t s, isActive (setPreempted r t s) = false
}.

(** The only exception the transport documents and the plugin catches. *)
Inductive exception : Type := std_length_error.

Inductive SendResult : Type := Sent | LengthError.

(** [mavconn::MAVConnInterface::send_message]. *)
Class MAVConnInterface (Link : Type) := {
  link_send : MavMsg -> Link -> SendResult * Link
}.

(** ** Plugin state and the trace of outgoing calls *)

(** [enum class State] *)
Inductive State : Type := Idle | GettingLogList | GettingLogData.

Inductive Severity : Type := WARN | ERROR.

Inductive Effect : Type :=
| Publish_log_entry (msg : LogEntry.t)
| Publish_log_data (msg : LogData.t)
| Send_message (msg : MavMsg)
| List_setPreempted (res : GetLogList.Result) (text : string)
| Data_setPreempted (res : GetLog.Result) (text : string)
| Ros_log (sev : Severity) (text : string).

Record LogTransferPlugin (LogListItem ListSrv DataSrv Link : Type) := mkPlugin {
  get_log_list_action_srv : ListSrv;
  get_log_action_srv : DataSrv;
  state : State;
  logListItems : list LogListItem;
  m_uas : UAS;
  fcu_link : Link;
  trace : list Effect
}.

(** Reports and commands read off a trace. *)
Definition data_reports (tr : list Effect) : list (GetLog.Result * string) :=
  flat_map (fun e => match e with Data_setPreempted r t => [(r, t)] | _ => [] end) tr.

Definition list_reports (tr : list Effect) : list (GetLogList.Result * string) :=
  flat_map (fun e => match e with List_setPreempted r t => [(r, t)] | _ => [] end) tr.

Definition sent_messages (tr : list Effect) : list MavMsg :=
  flat_map (fun e => match e with Send_message m => [m] | _ => [] end) tr.

Definition ros_logs (tr : list Effect) : list (Severity * string) :=
  flat_map (fun e => match e with Ros_log s t => [(s, t)] | _ => [] end) tr.

Definition published_data (tr : list Effect) : list LogData.t :=
  flat_map (fun e => match e with Publish_log_data m => [m] | _ => [] end) tr.

(** [needle] occurs in [hay]. *)
Definition Contains (needle hay : string) : Prop :=
  exists pre post : string, hay = (pre ++ needle ++ post)%string.

(** ** State-and-exception monad *)

Inductive Outcome (A : Type) : Type :=
| Returns (a : A)
| Throws (e : exception).
Arguments Throws {A} e.

Section Monad.
Variable S : Type.

Definition M (A : Type) : Type := S -> Outcome A * S.

Definition ret {A} (a : A) : M A := fun s => (Returns a, s).

Definition bind {A B} (m : M A) (k : A -> M B) : M B :=
    fun s => match m s with
             | (Returns a, s') => k a s'
             | (Throws e, s') => (Throws e, s')
             end.

(** [try { body } catch (std::length_error&) { handler }] *)
Definition try_catch_length_error {A} (body handler : M A) : M A :=
    fun s => match body s with
             | (Returns a, s') => (Returns a, s')
             | (Throws std_length_error, s') => handler s'
             end.

Definition gets {A} (f : S -> A) : M A := fun s => (Returns (f s), s).
Definition modify (f : S -> S) : M unit := fun s => (Returns tt, f s).
End Monad.

Arguments ret {S A} a.
Arguments bind {S A B} m k.
Arguments try_catch_length_error {S A} body handler.
Arguments gets {S A} f.
Arguments modify {S} f.

Declare Scope cpp_scope.
Delimit Scope cpp_scope with cpp.
Notation "x <- m ;; k" := (bind m (fun x => k))
  (at level 61, m at next level, right associativity) : cpp_scope.
Notation "m ;; k" := (bind m (fun _ => k))
  (at level 61, right associativity) : cpp_scope.
Notation "'when' c 'then' m" := (if c then m else ret tt)
  (at level 60, c at level 9, m at level 60) : cpp_scope.

Section Plugin.
Context {LogListItem ListSrv DataSrv Link : Type}.
Context {list_host : SimpleActionServer ListSrv GetLogList.Goal GetLogList.Result}.
Context {data_host : SimpleActionServer DataSrv GetLog.Goal GetLog.Result}.
Context {conn : MAVConnInterface Link}.

Local Abbreviation Plugin := (LogTransferPlugin LogListItem ListSrv DataSrv Link).
Local Abbreviation Cb := (M Plugin).
Local Open Scope cpp_scope.

(** *** Field updates *)

Definition set_state (v : State) (p : Plugin) : Plugin :=
    mkPlugin (get_log_list_action_srv p) (get_log_action_srv p) v
             (logListItems p) (m_uas p) (fcu_link p) (trace p).

Definition set_list_srv (v : ListSrv) (p : Plugin) : Plugin :=
    mkPlugin v (get_log_action_srv p) (state p)
             (logListItems p) (m_uas p) (fcu_link p) (trace p).

Definition set_data_srv (v : DataSrv) (p : Plugin) : Plugin :=
    mkPlugin (get_log_list_action_srv p) v (state p)
             (logListItems p) (m_uas p) (fcu_link p) (trace p).

Definition set_link (v : Link) (p : Plugin) : Plugin :=
    mkPlugin (get_log_list_action_srv p) (get_log_action_srv p) (state p)
             (logListItems p) (m_uas p) v (trace p).

Definition emit (e : Effect) (p : Plugin) : Plugin :=
    mkPlugin (get_log_list_action_srv p) (get_log_action_srv p) (state p)
             (logListItems p) (m_uas p) (fcu_link p) (trace p ++ [e]).

(** *** Calls into the collaborators *)

Definition list_acceptNewGoal : Cb (option GetLogList.Goal) :=
    fun p => let (g, s) := acceptNewGoal (get_log_list_action_srv p) in
             (Returns g, set_list_srv s p).

Definition data_acceptNewGoal : Cb (option GetLog.Goal) :=
    fun p => let (g, s) := acceptNewGoal (get_log_action_srv p) in
             (Returns g, set_data_srv s p).

Definition list_isPreemptRequested : Cb bool :=
    gets (fun p => isPreemptRequested (get_log_list_action_srv p)).

Definition data_isActive : Cb bool :=
    gets (fun p => isActive (get_log_action_srv p)).

Definition list_setPreempted (res : GetLogList.Result) (text : string) : Cb unit :=
    modify (fun p => emit (List_setPreempted res text)
                       (set_list_srv (setPreempted res text (get_log_list_action_srv p)) p)).

Definition data_setPreempted (res : GetLog.Result) (text : string) : Cb unit :=
    modify (fun p => emit (Data_setPreempted res text)
                       (set_data_srv (setPreempted res text (get_log_action_srv p)) p)).

(** [UAS_FCU(m_uas)->send_message(msg)]: the attempt is recorded, then the
      link either takes the message or throws [std::length_error]. *)
Definition send_message (msg : MavMsg) : Cb unit :=
    fun p => let (r, l) := link_send msg (fcu_link p) in
             let p' := emit (Send_message msg) (set_link l p) in
             match r with
             | Sent => (Returns tt, p')
             | LengthError => (Throws std_length_error, p')
             end.

Definition ROS_WARN_NAMED (text : string) : Cb unit := modify (emit (Ros_log WARN text)).
Definition ROS_ERROR_NAMED (text : string) : Cb unit := modify (emit (Ros_log ERROR text)).
Definition log_entry_pub_publish (msg : LogEntry.t) : Cb unit :=
    modify (emit (Publish_log_entry msg)).
Definition log_data_pub_publish (msg : LogData.t) : Cb unit :=
    modify (emit (Publish_log_data msg)).

(** *** The callbacks, in source order *)

(** [ros::Time::now()] is an input of the packet handlers;
      [ros::Time(le.time_utc)] is whole seconds. *)
Definition handle_log_entry (now : Time.t) (le : LOG_ENTRY.t) : Cb unit :=
    let msg := LogEntry.mk now (LOG_ENTRY.id le) (LOG_ENTRY.num_logs le)
                 (LOG_ENTRY.last_log_num le) (Time.mk (LOG_ENTRY.time_utc le) 0)
                 (LOG_ENTRY.size le) in
    log_entry_pub_publish msg.

Definition handle_log_data (now : Time.t) (ld : LOG_DATA.t) : Cb unit :=
    let count := LOG_DATA.count ld in
    let count := if (LOG_DATA.max_size ld <? count)%N then LOG_DATA.max_size ld else count in
    let msg := LogData.mk now (LOG_DATA.id ld) (LOG_DATA.ofs ld)
                 (firstn (N.to_nat count) (LOG_DATA.data ld)) in
    log_data_pub_publish msg.

Definition log_request_list_cb (req : LogRequestList.Request)
    : Cb (bool * LogRequestList.Response) :=
    uas <- gets (fun p => m_uas p) ;;
    let msg := LOG_REQUEST_LIST (get_tgt_system uas) (get_tgt_component uas)
                 (LogRequestList.start req) (LogRequestList.end_ req) in
    success <- try_catch_length_error (send_message msg ;; ret true) (ret false) ;;
    ret (true, LogRequestList.mkRes success).

Definition log_request_data_cb (req : LogRequestData.Request)
    : Cb (bool * LogRequestData.Response) :=
    uas <- gets (fun p => m_uas p) ;;
    let msg := LOG_REQUEST_DATA (get_tgt_system uas) (get_tgt_component uas)
                 (LogRequestData.id req) (LogRequestData.offset req)
                 (LogRequestData.count req) in
    success <- try_catch_length_error (send_message msg ;; ret true) (ret false) ;;
    ret (true, LogRequestData.mkRes success).

Definition stopLogTransfer : Cb bool :=
    uas <- gets (fun p => m_uas p) ;;
    let msg := LOG_REQUEST_END (get_tgt_system uas) (get_tgt_component uas) in
    try_catch_length_error
      (send_message msg ;; ret true)
      (ROS_ERROR_NAMED "Failed to send LOG_REQUEST_END message" ;; ret false).

Definition log_request_end_cb (req : LogRequestEnd.Request)
    : Cb (bool * LogRequestEnd.Response) :=
    success <- stopLogTransfer ;;
    ret (true, LogRequestEnd.mkRes success).

Definition logListRequested : Cb unit :=
    goal <- list_acceptNewGoal ;;
    match goal with
    | None => ROS_WARN_NAMED "Null goal received for get_log_list"
    | Some _ =>
        stopLogTransfer ;;
        active <- data_isActive ;;
        (when active then
           data_setPreempted (GetLog.mkResult false) "Log list was requested") ;;
        modify (set_state Idle) ;;
        preempt <- list_isPreemptRequested ;;
        when preempt then
          list_setPreempted (GetLogList.mkResult false) "Log list request was preempted"
    end.

Definition logListRequestPreempted : Cb unit := ret tt.

Definition logRequested : Cb unit :=
    goal <- data_acceptNewGoal ;;
    preempt <- list_isPreemptRequested ;;
    when preempt then
      (list_setPreempted (GetLogList.mkResult false) "Another log list request was accepted" ;;
       active <- data_isActive ;;
       when active then
         data_setPreempted (GetLog.mkResult false) "Log list was requested").

Definition logRequestPreempted : Cb unit := ret tt.

(** *** Events and reachable plugin states *)

Inductive Event : Type :=
  | Ev_log_entry (now : Time.t) (le : LOG_ENTRY.t)
  | Ev_log_data (now : Time.t) (ld : LOG_DATA.t)
  | Ev_request_list (req : LogRequestList.Request)
  | Ev_request_data (req : LogRequestData.Request)
  | Ev_request_end (req : LogRequestEnd.Request)
  | Ev_list_goal
  | Ev_list_preempt
  | Ev_data_goal
  | Ev_data_preempt.

Definition dispatch (ev : Event) : Cb unit :=
    match ev with
    | Ev_log_entry now le => handle_log_entry now le
    | Ev_log_data now ld => handle_log_data now ld
    | Ev_request_list req => log_request_list_cb req ;; ret tt
    | Ev_request_data req => log_request_data_cb req ;; ret tt
    | Ev_request_end req => log_request_end_cb req ;; ret tt
    | Ev_list_goal => logListRequested
    | Ev_list_preempt => logListRequestPreempted
    | Ev_data_goal => logRequested
    | Ev_data_preempt => logRequestPreempted
    end.

Definition run {A} (m : Cb A) (p : Plugin) : Plugin := snd (m p).
Definition result {A} (m : Cb A) (p : Plugin) : Outcome A := fst (m p).

(** The object as constructed: [state = State::Idle], an empty stack. *)
Definition initial (ls : ListSrv) (ds : DataSrv) (uas : UAS) (l : Link) : Plugin :=
    mkPlugin ls ds Idle [] uas l [].

(** Between two callbacks the hosts and the link move on their own
      (clients submit and cancel goals, the link drains). *)
Definition environment (ls : ListSrv) (ds : DataSrv) (l : Link) (p : Plugin) : Plugin :=
    set_link l (set_data_srv ds (set_list_srv ls p)).

Inductive reachable : Plugin -> Prop :=
  | reachable_initial ls ds uas l : reachable (initial ls ds uas l)
  | reachable_event ev p : reachable p -> reachable (run (dispatch ev) p)
  | reachable_environment ls ds l p : reachable p -> reachable (environment ls ds l p).

Definition ListActive (p : Plugin) : Prop := state p = GettingLogList.
Definition DataActive (p : Plugin) : Prop := state p = GettingLogData.
End Plugin.

(** ** Reference collaborators

    A small goal server and a small link that implement the two interfaces,
    so that the callbacks can be run on concrete inputs.  The server follows
    actionlib's SimpleActionServer: a pending goal with its own preempt
    flag, a current goal, and the results reported so far.  The link follows
    mavconn: a bounded transmit queue that throws when it is full. *)

Record RefServer (Goal Result : Type) := mkRefServer {
  next_goal : option Goal;
  new_goal_preempt_request : bool;
  current_goal : option Goal;
  current_active : bool;
  preempt_request : bool;
  reported : list (Result * string)
}.

Definition ref_acceptNewGoal {G R} (s : RefServer G R) : option G * RefServer G R :=
  match next_goal s with
  | None => (None, s)
  | Some g =>
      (Some g, mkRefServer None false (Some g) true (new_goal_preempt_request s) (reported s))
  end.

Definition ref_setPreempted {G R} (r : R) (t : string) (s : RefServer G R) : RefServer G R :=
  mkRefServer (next_goal s) (new_goal_preempt_request s) (current_goal s) false
              (preempt_request s) (reported s ++ [(r, t)]).

#[export] Instance RefServer_host (G R : Type) : SimpleActionServer (RefServer G R) G R := {|
  acceptNewGoal := ref_acceptNewGoal;
  isActive := fun s => current_active s;
  isPreemptRequested := fun s => preempt_request s;
  setPreempted := ref_setPreempted;
  setPreempted_not_active := fun _ _ _ => eq_refl
|}.

Record TxQueue := mkTxQueue { MAX_TXQ_SIZE : nat; tx_q : list MavMsg }.

Definition txq_send (msg : MavMsg) (l : TxQueue) : SendResult * TxQueue :=
  if Nat.leb (MAX_TXQ_SIZE l) (List.length (tx_q l))
  then (LengthError, l)
  else (Sent, mkTxQueue (MAX_TXQ_SIZE l) (tx_q l ++ [msg])).

#[export] Instance TxQueue_conn : MAVConnInterface TxQueue := {| link_send := txq_send |}.

Definition RefListSrv := RefServer GetLogList.Goal GetLogList.Result.
Definition RefDataSrv := RefServer GetLog.Goal GetLog.Result.
Definition RefPlugin := LogTransferPlugin unit RefListSrv RefDataSrv TxQueue.

Definition idle_server {G R} : RefServer G R := mkRefServer None false None false false [].
Definition pending_server {G R} (g : G) (preempt : bool) : RefServer G R :=
  mkRefServer (Some g) preempt None false false [].
Definition active_server {G R} (g : G) (preempt : bool) : RefServer G R :=
  mkRefServer None false (Some g) true preempt [].

Definition fcu : UAS := mkUAS 1 1.
Definition open_link : TxQueue := mkTxQueue 1000 [].
Definition full_link : TxQueue := mkTxQueue 0 [].

(** DataOperation{id=1,offset=0,count=10} is active and ListGoal{start=0,end=5}
    arrives. *)
Definition scenario_list_over_data : RefPlugin :=
  initial (pending_server (GetLogList.mkGoal 0 5) false)
          (active_server (GetLog.mkGoal 1 0 10) false) fcu open_link.

(** The incoming list goal was already cancelled when it is accepted. *)
Definition scenario_list_superseded : RefPlugin :=
  initial (pending_server (GetLogList.mkGoal 0 5) true) idle_server fcu open_link.

(** A data goal arrives and nothing is pending on the list server. *)
Definition scenario_data_goal : RefPlugin :=
  initial idle_server (pending_server (GetLog.mkGoal 1 0 10) false) fcu open_link.

(** A data goal arrives while the active list goal has a cancel pending. *)
Definition scenario_data_over_cancelled_list : RefPlugin :=
  initial (active_server (GetLogList.mkGoal 0 5) true)
          (pending_server (GetLog.mkGoal 1 0 10) false) fcu open_link.

(** The data goal callback fires, [acceptNewGoal] has nothing to hand out
    (null), an earlier data goal is still active and the active list goal
    has a cancel pending. *)
Definition scenario_null_data_goal : RefPlugin :=
  initial (active_server (GetLogList.mkGoal 0 5) true)
          (active_server (GetLog.mkGoal 1 0 10) false) fcu open_link.

(** LOG_DATA claiming 200 bytes in a 90-byte array. *)
Definition packet_200_of_90 : LOG_DATA.t := LOG_DATA.mk 3 4096 200 (repeat x2a 90).

Definition clock : Time.t := Time.mk 1000 0.

(** ** What a callback is expected to put on the wire and on the topics *)

Definition published_entries (tr : list Effect) : list LogEntry.t :=
  flat_map (fun e => match e with Publish_log_entry m => [m] | _ => [] end) tr.

(** The addressee written by [msg_set_target]. *)
Definition target_of (msg : MavMsg) : N * N :=
  match msg with
  | LOG_REQUEST_LIST s c _ _ => (s, c)
  | LOG_REQUEST_DATA s c _ _ _ => (s, c)
  | LOG_REQUEST_END s c => (s, c)
  end.

Section Expected.
Context {LogListItem ListSrv DataSrv Link : Type}.
Context {list_host : SimpleActionServer ListSrv GetLogList.Goal GetLogList.Result}.

(** The wire commands an event gives rise to: one per service call, one
    LOG_REQUEST_END per list goal that is not null, none otherwise. *)
Definition expected_commands (ev : Event)
    (p : LogTransferPlugin LogListItem ListSrv DataSrv Link) : list MavMsg :=
  let sys := get_tgt_system (m_uas p) in
  let comp := get_tgt_component (m_uas p) in
  match ev with
  | Ev_request_list req =>
      [LOG_REQUEST_LIST sys comp (LogRequestList.start req) (LogRequestList.end_ req)]
  | Ev_request_data req =>
      [LOG_REQUEST_DATA sys comp (LogRequestData.id req) (LogRequestData.offset req)
         (LogRequestData.count req)]
  | Ev_request_end _ => [LOG_REQUEST_END sys comp]
  | Ev_list_goal =>
      match fst (acceptNewGoal (get_log_list_action_srv p)) with
      | Some _ => [LOG_REQUEST_END sys comp]
      | None => []
      end
  | _ => []
  end.
End Expected.

(** The messages a packet gives rise to on the two topics. *)
Definition expected_entries (ev : Event) : list LogEntry.t :=
  match ev with
  | Ev_log_entry now le =>
      [LogEntry.mk now (LOG_ENTRY.id le) (LOG_ENTRY.num_logs le) (LOG_ENTRY.last_log_num le)
         (Time.mk (LOG_ENTRY.time_utc le) 0) (LOG_ENTRY.size le)]
  | _ => []
  end.

Definition expected_data (ev : Event) : list LogData.t :=
  match ev with
  | Ev_log_data now ld =>
      [LogData.mk now (LOG_DATA.id ld) (LOG_DATA.ofs ld)
         (firstn (N.to_nat (N.min (LOG_DATA.count ld) (LOG_DATA.max_size ld)))
            (LOG_DATA.data ld))]
  | _ => []
  end.

(** The report texts that occur in the source. *)
Definition data_report_ok (r : GetLog.Result * string) : Prop :=
  GetLog.success (fst r) = false /\ snd r = "Log list was requested"%string.

Definition list_report_ok (r : GetLogList.Result * string) : Prop :=
  GetLogList.success (fst r) = false /\
  (snd r = "Log list request was preempted"%string \/
   snd r = "Another log list request was accepted"%string).

Definition report_effect_ok (e : Effect) : Prop :=
  match e with
  | Data_setPreempted r t => data_report_ok (r, t)
  | List_setPreempted r t => list_report_ok (r, t)
  | _ => True
  end.

(** Further inputs for the reference collaborators. *)

(** A list goal arrives, a data goal is active, and the link is full. *)
Definition scenario_list_over_data_link_full : RefPlugin :=
  initial (pending_server (GetLogList.mkGoal 0 5) false)
          (active_server (GetLog.mkGoal 1 0 10) false) fcu full_link.

(** A list goal arrives and nothing is running on the data server. *)
Definition scenario_list_goal_alone : RefPlugin :=
  initial (pending_server (GetLogList.mkGoal 0 5) false) idle_server fcu open_link.

(** A list goal that was already cancelled arrives while a data goal is
    active. *)
Definition scenario_superseded_list_over_data : RefPlugin :=
  initial (pending_server (GetLogList.mkGoal 0 5) true)
          (active_server (GetLog.mkGoal 1 0 10) false) fcu open_link.

(** The list goal callback fires with nothing to accept. *)
Definition scenario_null_list_goal : RefPlugin :=
  initial idle_server (active_server (GetLog.mkGoal 1 0 10) false) fcu open_link.

(** Two list goals in a row over an active data goal: the state after the
    first, with the second goal pending. *)
Definition scenario_second_list_goal : RefPlugin :=
  environment (pending_server (GetLogList.mkGoal 5 9) false)
              (get_log_action_srv (run logListRequested scenario_list_over_data))
              open_link
              (run logListRequested scenario_list_over_data).

(** ** The two operations as the goal servers see them *)

Section Operations.
Context {LogListItem ListSrv DataSrv Link : Type}.
Context {list_host : SimpleActionServer ListSrv GetLogList.Goal GetLogList.Result}.
Context {data_host : SimpleActionServer DataSrv GetLog.Goal GetLog.Result}.

(** The list operation, resp. the data operation, has a goal running. *)
Definition list_operation_active
    (p : LogTransferPlugin LogListItem ListSrv DataSrv Link) : Prop :=
  isActive (get_log_list_action_srv p) = true.

Definition data_operation_active
    (p : LogTransferPlugin LogListItem ListSrv DataSrv Link) : Prop :=
  isActive (get_log_action_srv p) = true.
End Operations.

(** ** A goal server that remembers how each goal ended

    As the reference server, but with a record per goal: a running goal
    that [acceptNewGoal] replaces by a newer one is ended by the server
    itself ([Superseded]); a goal ended through [setPreempted] is the one
    that is current at that moment ([Preempted], with the caller's result
    and text). *)

Inductive Ending (G R : Type) : Type :=
| Superseded (g : G)
| Preempted (g : G) (r : R) (t : string).
Arguments Superseded {G R} g.
Arguments Preempted {G R} g r t.

Record TrackedServer (G R : Type) := mkTrackedServer {
  tracked_next_goal : option G;
  tracked_new_goal_preempt_request : bool;
  tracked_current_goal : option G;
  tracked_active : bool;
  tracked_preempt_request : bool;
  endings : list (Ending G R)
}.

(** What becomes of the running goal, if there is one. *)
Definition end_running {G R} (s : TrackedServer G R) (how : G -> Ending G R)
  : list (Ending G R) :=
  if tracked_active s
  then match tracked_current_goal s with Some g => [how g] | None => [] end
  else [].

Definition tracked_acceptNewGoal {G R} (s : TrackedServer G R)
  : option G * TrackedServer G R :=
  match tracked_next_goal s with
  | None => (None, s)
  | Some g =>
      (Some g,
       mkTrackedServer None false (Some g) true (tracked_new_goal_preempt_request s)
                       (endings s ++ end_running s Superseded))
  end.

Definition tracked_setPreempted {G R} (r : R) (t : string) (s : TrackedServer G R)
  : TrackedServer G R :=
  mkTrackedServer (tracked_next_goal s) (tracked_new_goal_preempt_request s)
                  (tracked_current_goal s) false (tracked_preempt_request s)
                  (endings s ++ end_running s (fun g => Preempted g r t)).

#[export] Instance TrackedServer_host (G R : Type)
  : SimpleActionServer (TrackedServer G R) G R := {|
  acceptNewGoal := tracked_acceptNewGoal;
  isActive := fun s => tracked_active s;
  isPreemptRequested := fun s => tracked_preempt_request s;
  setPreempted := tracked_setPreempted;
  setPreempted_not_active := fun _ _ _ => eq_refl
|}.

Definition TrackedDataSrv := TrackedServer GetLog.Goal GetLog.Result.
Definition TrackedPlugin := LogTransferPlugin unit RefListSrv TrackedDataSrv TxQueue.

(** A list goal is accepted; then a data goal arrives, with no cancel on the
    list goal, and is accepted. *)
Definition scenario_list_then_data : RefPlugin :=
  let p1 := run (dispatch Ev_list_goal) scenario_list_goal_alone in
  let p2 := environment (get_log_list_action_srv p1)
                        (pending_server (GetLog.mkGoal 1 0 10) false)
                        (fcu_link p1) p1 in
  run (dispatch Ev_data_goal) p2.

(** Data goal {1,0,10} is running, data goal {2,0,10} arrives, and the
    active list goal has a cancel pending. *)
Definition scenario_data_replaces_data : TrackedPlugin :=
  initial (active_server (GetLogList.mkGoal 0 5) true)
          (mkTrackedServer (Some (GetLog.mkGoal 2 0 10)) false
                           (Some (GetLog.mkGoal 1 0 10)) true false [])
          fcu open_link.

(** * Properties *)

Unset Implicit Arguments.

Lemma data_reports_app (a b : list Effect) :
  data_reports (a ++ b) = data_reports a ++ data_reports b.
Proof. apply flat_map_app. Qed.

Lemma list_reports_app (a b : list Effect) :
  list_reports (a ++ b) = list_reports a ++ list_reports b.
Proof. apply flat_map_app. Qed.

Lemma sent_messages_app (a b : list Effect) :
  sent_messages (a ++ b) = sent_messages a ++ sent_messages b.
Proof. apply flat_map_app. Qed.

Lemma ros_logs_app (a b : list Effect) :
  ros_logs (a ++ b) = ros_logs a ++ ros_logs b.
Proof. apply flat_map_app. Qed.

Lemma published_data_app (a b : list Effect) :
  published_data (a ++ b) = published_data a ++ published_data b.
Proof. apply flat_map_app. Qed.

Create Rewrite HintDb trace_db.
#[export] Hint Rewrite data_reports_app list_reports_app sent_messages_app
  ros_logs_app published_data_app app_nil_r : trace_db.

Lemma Contains_intro (pre needle post hay : string) :
  hay = (pre ++ needle ++ post)%string -> Contains needle hay.
Proof. intros H. exists pre, post. exact H. Qed.

(** Unfold a callback down to the collaborator calls. *)
Ltac unfold_cb :=
  unfold run, result, dispatch,
    logListRequested, logRequested, logListRequestPreempted, logRequestPreempted,
    log_request_list_cb, log_request_data_cb, log_request_end_cb, stopLogTransfer,
    handle_log_entry, handle_log_data,
    list_acceptNewGoal, data_acceptNewGoal, list_isPreemptRequested, data_isActive,
    list_setPreempted, data_setPreempted, send_message,
    ROS_WARN_NAMED, ROS_ERROR_NAMED, log_entry_pub_publish, log_data_pub_publish,
    try_catch_length_error, bind, ret, gets, modify.

(** Split on one answer of a collaborator. *)
Ltac case_answer :=
  match goal with
  | |- context [match ?x with _ => _ end] =>
      lazymatch x with
      | context [match _ with _ => _ end] => fail
      | _ => destruct x eqn:?; cbn
      end
  end.

Ltac run_cb := unfold_cb; cbn; repeat case_answer.

Section Properties.
Context {LogListItem ListSrv DataSrv Link : Type}.
Context {list_host : SimpleActionServer ListSrv GetLogList.Goal GetLogList.Result}.
Context {data_host : SimpleActionServer DataSrv GetLog.Goal GetLog.Result}.
Context {conn : MAVConnInterface Link}.

Local Abbreviation Plugin := (LogTransferPlugin LogListItem ListSrv DataSrv Link).

(** [stopLogTransfer] always returns, sends exactly LOG_REQUEST_END, and
    touches neither the flag, the stack nor the two servers. *)
Lemma stopLogTransfer_frame (p : Plugin) :
  exists ok p',
    stopLogTransfer p = (Returns ok, p') /\
    state p' = state p /\
    logListItems p' = logListItems p /\
    get_log_list_action_srv p' = get_log_list_action_srv p /\
    get_log_action_srv p' = get_log_action_srv p /\
    m_uas p' = m_uas p /\
    data_reports (trace p') = data_reports (trace p) /\
    list_reports (trace p') = list_reports (trace p) /\
    sent_messages (trace p') = sent_messages (trace p) ++
      [LOG_REQUEST_END (get_tgt_system (m_uas p)) (get_tgt_component (m_uas p))] /\
    (ok = false <->
     fst (link_send (LOG_REQUEST_END (get_tgt_system (m_uas p)) (get_tgt_component (m_uas p)))
            (fcu_link p)) = LengthError).
Proof.
  unfold_cb; cbn.
  destruct (link_send _ (fcu_link p)) as [[|] l] eqn:E; cbn;
    eexists; eexists; (split; [reflexivity|]); cbn;
    autorewrite with trace_db; cbn; autorewrite with trace_db;
    repeat split; try reflexivity; try discriminate; auto.
Qed.

(** ** List goal accepted while a data goal is active *)

(** C1 (as the code has it): when the list-goal callback accepts a
    non-null goal that is not itself preempt-requested while the data
    server is active, the callback returns, exactly one preemption report
    is added on the data operation, its reason is "Log list was requested"
    (which contains "requested"), and the session flag is [Idle] when the
    callback ends: the callback assigns [Idle] and nothing afterwards. *)
Theorem logListRequested_preempts_active_data :
  forall (p : Plugin) (goal : GetLogList.Goal) (ls : ListSrv),
    acceptNewGoal (get_log_list_action_srv p) = (Some goal, ls) ->
    isActive (get_log_action_srv p) = true ->
    isPreemptRequested ls = false ->
    result logListRequested p = Returns tt /\
    data_reports (trace (run logListRequested p)) =
      data_reports (trace p) ++ [(GetLog.mkResult false, "Log list was requested"%string)] /\
    Contains "requested" "Log list was requested" /\
    list_reports (trace (run logListRequested p)) = list_reports (trace p) /\
    state (run logListRequested p) = Idle.
Proof.
  intros p goal ls Hacc Hact Hpre.
  unfold run, result, logListRequested, bind, list_acceptNewGoal.
  rewrite Hacc.
  destruct (stopLogTransfer_frame (set_list_srv ls p))
    as (ok & q & Hstop & _ & _ & Hls & Hds & _ & Hdr & Hlr & _).
  rewrite Hstop.
  unfold data_isActive, list_isPreemptRequested, data_setPreempted, gets, modify, ret.
  cbn in Hls, Hds. rewrite Hds, Hact. cbn. rewrite Hls, Hpre. cbn.
  autorewrite with trace_db. cbn in Hdr, Hlr. rewrite Hdr, Hlr. cbn.
  autorewrite with trace_db.
  repeat split.
  apply (Contains_intro "Log list was " "requested" ""). reflexivity.
Qed.

(** ** The session flag over whole runs *)

(** No callback assigns anything but [Idle] to the flag. *)
Lemma dispatch_state (ev : Event) (p : Plugin) :
  state (run (dispatch ev) p) = state p \/ state (run (dispatch ev) p) = Idle.
Proof.
  destruct ev; run_cb; auto.
Qed.

Lemma environment_state (ls : ListSrv) (ds : DataSrv) (l : Link) (p : Plugin) :
  state (environment ls ds l p) = state p.
Proof. reflexivity. Qed.

Lemma reachable_state_Idle (p : Plugin) : reachable p -> state p = Idle.
Proof.
  induction 1 as [ls ds uas l | ev p Hp IH | ls ds l p Hp IH].
  - reflexivity.
  - destruct (dispatch_state ev p) as [E | E]; congruence.
  - rewrite environment_state. exact IH.
Qed.

(** ** The unused stack *)

Lemma dispatch_logListItems (ev : Event) (p : Plugin) :
  logListItems (run (dispatch ev) p) = logListItems p.
Proof.
  destruct ev; run_cb; reflexivity.
Qed.

(** C10: [logListItems] is empty in the constructed object, every callback
    (packet handlers, service callbacks, goal and preempt handlers) leaves it
    as it found it, and so it is empty in every reachable state. *)
Theorem logListItems_always_empty :
  (forall (ls : ListSrv) (ds : DataSrv) (uas : UAS) (l : Link),
      logListItems (initial ls ds uas l : Plugin) = []) /\
  (forall (ev : Event) (p : Plugin),
      logListItems (run (dispatch ev) p) = logListItems p) /\
  (forall p : Plugin, reachable p -> logListItems p = []).
Proof.
  split; [reflexivity|]. split; [exact dispatch_logListItems|].
  induction 1 as [ls ds uas l | ev p Hp IH | ls ds l p Hp IH].
  - reflexivity.
  - rewrite dispatch_logListItems. exact IH.
  - exact IH.
Qed.

(** ** Goal acceptance *)

(** C4: when the list-goal callback accepts a goal that is already
    preempt-requested, the callback returns, the goal is completed with
    [success = false] and the reason "Log list request was preempted" (which
    contains "preempted"), the flag is [Idle] at the end, and the goal is
    handed back: the last call on the list server is that report, after
    which the server is not active. *)
Theorem logListRequested_superseded_goal :
  forall (p : Plugin) (goal : GetLogList.Goal) (ls : ListSrv),
    acceptNewGoal (get_log_list_action_srv p) = (Some goal, ls) ->
    isPreemptRequested ls = true ->
    result logListRequested p = Returns tt /\
    list_reports (trace (run logListRequested p)) =
      list_reports (trace p) ++
      [(GetLogList.mkResult false, "Log list request was preempted"%string)] /\
    Contains "preempted" "Log list request was preempted" /\
    state (run logListRequested p) = Idle /\
    get_log_list_action_srv (run logListRequested p) =
      setPreempted (GetLogList.mkResult false) "Log list request was preempted" ls /\
    isActive (get_log_list_action_srv (run logListRequested p)) = false.
Proof.
  intros p goal ls Hacc Hpre.
  unfold run, result, logListRequested, bind, list_acceptNewGoal.
  rewrite Hacc.
  destruct (stopLogTransfer_frame (set_list_srv ls p))
    as (ok & q & Hstop & _ & _ & Hls & Hds & _ & Hdr & Hlr & _).
  rewrite Hstop.
  change (trace (set_list_srv ls p)) with (trace p) in Hlr.
  change (get_log_list_action_srv (set_list_srv ls p)) with ls in Hls.
  assert (HC : Contains "preempted" "Log list request was preempted")
    by (apply (Contains_intro "Log list request was " "preempted" ""); reflexivity).
  unfold data_isActive, list_isPreemptRequested, data_setPreempted,
    list_setPreempted, gets, modify, ret.
  destruct (isActive (get_log_action_srv q)); cbn;
    rewrite Hls, Hpre; cbn; rewrite ?Hls;
    autorewrite with trace_db; rewrite Hlr; cbn; autorewrite with trace_db;
    repeat split; auto using setPreempted_not_active.
Qed.

(** C2 (as the code has it): when the data-goal callback runs and no
    list-goal preemption is pending, the callback returns having only taken
    the goal from the data server: it issues no call and leaves the session
    flag as it was, which in every reachable state is [Idle]. *)
Theorem logRequested_keeps_flag :
  forall p : Plugin,
    isPreemptRequested (get_log_list_action_srv p) = false ->
    result logRequested p = Returns tt /\
    state (run logRequested p) = state p /\
    trace (run logRequested p) = trace p /\
    (reachable p -> state (run logRequested p) = Idle).
Proof.
  intros p Hpre.
  unfold run, result, logRequested, bind, data_acceptNewGoal,
    list_isPreemptRequested, gets, ret.
  destruct (acceptNewGoal (get_log_action_srv p)) as [g ds]. cbn.
  rewrite Hpre. cbn.
  repeat split. apply reachable_state_Idle.
Qed.

(** C5 (as the code has it): when the data-goal callback runs while a
    list-goal preemption is pending, the list goal is reported preempted
    with [success = false] and the reason "Another log list request was
    accepted".  The callback has taken the new data goal first; if the data
    server, as [acceptNewGoal] left it, answers that it is active, the
    report "Log list was requested" (which contains "list was requested",
    with [success = false]) is made on that server state, that is on its
    current goal, and otherwise no data report is made.  The session flag
    is left as it was, so it is not set to DataActive. *)
Theorem logRequested_pending_list_preemption :
  forall p : Plugin,
    isPreemptRequested (get_log_list_action_srv p) = true ->
    let ds := snd (acceptNewGoal (get_log_action_srv p)) in
    result logRequested p = Returns tt /\
    list_reports (trace (run logRequested p)) =
      list_reports (trace p) ++
      [(GetLogList.mkResult false, "Another log list request was accepted"%string)] /\
    get_log_list_action_srv (run logRequested p) =
      setPreempted (GetLogList.mkResult false) "Another log list request was accepted"
                   (get_log_list_action_srv p) /\
    (isActive ds = true ->
     data_reports (trace (run logRequested p)) =
       data_reports (trace p) ++ [(GetLog.mkResult false, "Log list was requested"%string)] /\
     Contains "list was requested" "Log list was requested" /\
     get_log_action_srv (run logRequested p) =
       setPreempted (GetLog.mkResult false) "Log list was requested" ds) /\
    (isActive ds = false ->
     data_reports (trace (run logRequested p)) = data_reports (trace p) /\
     get_log_action_srv (run logRequested p) = ds) /\
    state (run logRequested p) = state p /\
    (state p <> GettingLogData -> state (run logRequested p) <> GettingLogData).
Proof.
  intros p Hpre.
  assert (HC : Contains "list was requested" "Log list was requested")
    by (apply (Contains_intro "Log " "list was requested" ""); reflexivity).
  unfold run, result, logRequested, bind, data_acceptNewGoal,
    list_isPreemptRequested, list_setPreempted, data_isActive, data_setPreempted,
    gets, modify, ret.
  destruct (acceptNewGoal (get_log_action_srv p)) as [g ds']. cbn.
  rewrite Hpre. cbn.
  destruct (isActive ds') eqn:Hact; cbn; autorewrite with trace_db; cbn;
    autorewrite with trace_db;
    repeat apply conj; intros; try discriminate; auto.
Qed.

(** X14: the list-goal callback on a null goal: a warning is logged and nothing
    else happens. *)
Lemma logListRequested_null_goal (p : Plugin) (ls : ListSrv) :
  acceptNewGoal (get_log_list_action_srv p) = (None, ls) ->
  result logListRequested p = Returns tt /\
  state (run logListRequested p) = state p /\
  trace (run logListRequested p) =
    trace p ++ [Ros_log WARN "Null goal received for get_log_list"].
Proof.
  intros Hacc.
  unfold run, result, logListRequested, bind, list_acceptNewGoal.
  rewrite Hacc. cbn. repeat split.
Qed.

(** ** Synchronous services *)

(** C6: each of the three service callbacks returns normally (no exception
    leaves it) with [res.success = false] exactly when the link throws
    [std::length_error] on the command and [true] otherwise; in both cases
    the command was handed to the link. *)
Theorem request_success_iff_link_accepts :
  forall p : Plugin,
    let sys := get_tgt_system (m_uas p) in
    let comp := get_tgt_component (m_uas p) in
    (forall req : LogRequestList.Request,
        let msg := LOG_REQUEST_LIST sys comp (LogRequestList.start req)
                     (LogRequestList.end_ req) in
        exists res,
          result (log_request_list_cb req) p = Returns (true, res) /\
          (LogRequestList.success res = false <->
           fst (link_send msg (fcu_link p)) = LengthError) /\
          (LogRequestList.success res = true <->
           fst (link_send msg (fcu_link p)) = Sent) /\
          sent_messages (trace (run (log_request_list_cb req) p)) =
            sent_messages (trace p) ++ [msg]) /\
    (forall req : LogRequestData.Request,
        let msg := LOG_REQUEST_DATA sys comp (LogRequestData.id req)
                     (LogRequestData.offset req) (LogRequestData.count req) in
        exists res,
          result (log_request_data_cb req) p = Returns (true, res) /\
          (LogRequestData.success res = false <->
           fst (link_send msg (fcu_link p)) = LengthError) /\
          (LogRequestData.success res = true <->
           fst (link_send msg (fcu_link p)) = Sent) /\
          sent_messages (trace (run (log_request_data_cb req) p)) =
            sent_messages (trace p) ++ [msg]) /\
    (forall req : LogRequestEnd.Request,
        let msg := LOG_REQUEST_END sys comp in
        exists res,
          result (log_request_end_cb req) p = Returns (true, res) /\
          (LogRequestEnd.success res = false <->
           fst (link_send msg (fcu_link p)) = LengthError) /\
          (LogRequestEnd.success res = true <->
           fst (link_send msg (fcu_link p)) = Sent) /\
          sent_messages (trace (run (log_request_end_cb req) p)) =
            sent_messages (trace p) ++ [msg]).
Proof.
  intros p sys comp. subst sys comp.
  repeat apply conj; intros req msg; subst msg; unfold_cb; cbn;
    destruct (link_send _ (fcu_link p)) as [[|] l]; cbn;
    eexists; (split; [reflexivity|]); cbn;
    autorewrite with trace_db; cbn; autorewrite with trace_db;
    repeat apply conj; try reflexivity; intros; try discriminate.
Qed.

(** C9: [log_request_list_cb] and [log_request_data_cb] leave the session
    flag, the stack and both goal servers as they found them, whatever the
    request and whether or not the send succeeds. *)
Theorem request_callbacks_keep_session :
  forall p : Plugin,
    (forall req : LogRequestList.Request,
        let p' := run (log_request_list_cb req) p in
        state p' = state p /\
        get_log_list_action_srv p' = get_log_list_action_srv p /\
        get_log_action_srv p' = get_log_action_srv p) /\
    (forall req : LogRequestData.Request,
        let p' := run (log_request_data_cb req) p in
        state p' = state p /\
        get_log_list_action_srv p' = get_log_list_action_srv p /\
        get_log_action_srv p' = get_log_action_srv p).
Proof.
  intros p. split; intros req; run_cb; repeat split.
Qed.

(** ** Telemetry *)

(** C7: [handle_log_data] publishes one LogData whose [id] and [offset] are
    the packet's; when the packet's [count] exceeds the capacity of its data
    array the published data is the whole array (exactly capacity bytes),
    and when [count] is within capacity it is the first [count] bytes
    (exactly [count] bytes). *)
Theorem handle_log_data_clamps_count :
  forall (p : Plugin) (now : Time.t) (ld : LOG_DATA.t),
  exists msg : LogData.t,
    result (handle_log_data now ld) p = Returns tt /\
    published_data (trace (run (handle_log_data now ld) p)) =
      published_data (trace p) ++ [msg] /\
    LogData.id msg = LOG_DATA.id ld /\
    LogData.offset msg = LOG_DATA.ofs ld /\
    ((LOG_DATA.max_size ld < LOG_DATA.count ld)%N ->
     LogData.data msg = LOG_DATA.data ld /\
     N.of_nat (List.length (LogData.data msg)) = LOG_DATA.max_size ld) /\
    ((LOG_DATA.count ld <= LOG_DATA.max_size ld)%N ->
     LogData.data msg = firstn (N.to_nat (LOG_DATA.count ld)) (LOG_DATA.data ld) /\
     N.of_nat (List.length (LogData.data msg)) = LOG_DATA.count ld).
Proof.
  intros p now ld.
  unfold run, result, handle_log_data, log_data_pub_publish, modify.
  eexists. split; [reflexivity|]. cbn.
  autorewrite with trace_db. cbn.
  split; [reflexivity|]. split; [reflexivity|]. split; [reflexivity|].
  unfold LOG_DATA.max_size.
  split; intros H.
  - apply N.ltb_lt in H as Hb. unfold LOG_DATA.max_size in Hb. rewrite Hb.
    rewrite Nat2N.id, firstn_all. auto.
  - assert (Hb : (N.of_nat (List.length (LOG_DATA.data ld)) <? LOG_DATA.count ld)%N = false)
      by (apply N.ltb_ge; exact H).
    rewrite Hb. split; [reflexivity|]. cbn [LogData.data].
    rewrite length_firstn. lia.
Qed.

End Properties.

(** * The callbacks on the reference collaborators *)

(** The spec's scenario, run: the data operation gets its one report and
    the flag is [Idle]. *)
Lemma logListRequested_preempts_active_data_witness :
  acceptNewGoal (get_log_list_action_srv scenario_list_over_data) =
    (Some (GetLogList.mkGoal 0 5), active_server (GetLogList.mkGoal 0 5) false) /\
  isActive (get_log_action_srv scenario_list_over_data) = true /\
  isPreemptRequested (active_server (GetLogList.mkGoal 0 5) false : RefListSrv) = false /\
  data_reports (trace (run logListRequested scenario_list_over_data)) =
    [(GetLog.mkResult false, "Log list was requested"%string)] /\
  state (run logListRequested scenario_list_over_data) = Idle.
Proof.
  split; [reflexivity|]. split; [reflexivity|]. split; [reflexivity|].
  destruct (logListRequested_preempts_active_data
              scenario_list_over_data (GetLogList.mkGoal 0 5)
              (active_server (GetLogList.mkGoal 0 5) false))
    as (_ & Hd & _ & _ & Hs); [reflexivity | reflexivity | reflexivity |].
  split; assumption.
Defined.

(** C1 as stated fails: in the spec's own scenario the flag does not end
    at ListActive. *)
Lemma logListRequested_flag_not_ListActive :
  ~ (acceptNewGoal (get_log_list_action_srv scenario_list_over_data) =
       (Some (GetLogList.mkGoal 0 5), active_server (GetLogList.mkGoal 0 5) false) ->
     isActive (get_log_action_srv scenario_list_over_data) = true ->
     isPreemptRequested (active_server (GetLogList.mkGoal 0 5) false : RefListSrv) = false ->
     ListActive (run logListRequested scenario_list_over_data)).
Proof.
  intros H.
  specialize (H eq_refl eq_refl eq_refl).
  unfold ListActive in H. vm_compute in H. discriminate H.
Qed.

Lemma logRequested_keeps_flag_witness :
  isPreemptRequested (get_log_list_action_srv scenario_data_goal) = false /\
  state (run logRequested scenario_data_goal) = state scenario_data_goal.
Proof.
  split; [reflexivity|].
  destruct (logRequested_keeps_flag scenario_data_goal)
    as (_ & Hs & _); [reflexivity|].
  exact Hs.
Defined.

(** C2 as stated fails: a data goal accepted with nothing pending on the
    list server does not put the flag at DataActive. *)
Lemma logRequested_flag_not_DataActive :
  ~ (isPreemptRequested (get_log_list_action_srv scenario_data_goal) = false ->
     DataActive (run logRequested scenario_data_goal)).
Proof.
  intros H.
  specialize (H eq_refl).
  unfold DataActive in H. vm_compute in H. discriminate H.
Qed.

Lemma logListRequested_superseded_goal_witness :
  acceptNewGoal (get_log_list_action_srv scenario_list_superseded) =
    (Some (GetLogList.mkGoal 0 5), active_server (GetLogList.mkGoal 0 5) true) /\
  isPreemptRequested (active_server (GetLogList.mkGoal 0 5) true : RefListSrv) = true /\
  list_reports (trace (run logListRequested scenario_list_superseded)) =
    [(GetLogList.mkResult false, "Log list request was preempted"%string)] /\
  state (run logListRequested scenario_list_superseded) = Idle /\
  isActive (get_log_list_action_srv (run logListRequested scenario_list_superseded)) = false.
Proof.
  split; [reflexivity|]. split; [reflexivity|].
  destruct (logListRequested_superseded_goal
              scenario_list_superseded (GetLogList.mkGoal 0 5)
              (active_server (GetLogList.mkGoal 0 5) true))
    as (_ & Hl & _ & Hs & _ & Ha); [reflexivity | reflexivity |].
  repeat split; assumption.
Defined.

(** No data goal is running before the event; the goal the callback takes
    is the one that gets the report. *)
Lemma logRequested_pending_list_preemption_witness :
  isPreemptRequested (get_log_list_action_srv scenario_data_over_cancelled_list) = true /\
  isActive (get_log_action_srv scenario_data_over_cancelled_list) = false /\
  isActive (snd (acceptNewGoal (get_log_action_srv scenario_data_over_cancelled_list))) = true /\
  list_reports (trace (run logRequested scenario_data_over_cancelled_list)) =
    [(GetLogList.mkResult false, "Another log list request was accepted"%string)] /\
  data_reports (trace (run logRequested scenario_data_over_cancelled_list)) =
    [(GetLog.mkResult false, "Log list was requested"%string)] /\
  state (run logRequested scenario_data_over_cancelled_list) = Idle.
Proof.
  split; [reflexivity|]. split; [reflexivity|]. split; [reflexivity|].
  destruct (logRequested_pending_list_preemption
              scenario_data_over_cancelled_list)
    as (_ & Hl & _ & Hd & _ & Hs & _); [reflexivity|].
  destruct (Hd eq_refl) as [Hd' _].
  repeat split; assumption.
Defined.

(** C5 as stated fails: data goal {1,0,10} was active, yet the report "Log
    list was requested" is not made on it.  The callback takes goal {2,0,10}
    first, the server ends {1,0,10} on its own, and the report lands on
    {2,0,10}. *)
Lemma logRequested_report_misses_running_goal :
  ~ (isPreemptRequested (get_log_list_action_srv scenario_data_replaces_data) = true ->
     isActive (get_log_action_srv scenario_data_replaces_data) = true ->
     tracked_current_goal (get_log_action_srv scenario_data_replaces_data) =
       Some (GetLog.mkGoal 1 0 10) ->
     exists t : string,
       In (Preempted (GetLog.mkGoal 1 0 10) (GetLog.mkResult false) t)
          (endings (get_log_action_srv (run logRequested scenario_data_replaces_data))) /\
       Contains "list was requested" t).
Proof.
  intros H.
  destruct (H eq_refl eq_refl eq_refl) as (t & Hin & _).
  vm_compute in Hin.
  destruct Hin as [E | [E | []]]; discriminate E.
Qed.

(** What happens there instead. *)
Example logRequested_report_lands_on_new_goal :
  endings (get_log_action_srv (run logRequested scenario_data_replaces_data)) =
    [Superseded (GetLog.mkGoal 1 0 10);
     Preempted (GetLog.mkGoal 2 0 10) (GetLog.mkResult false) "Log list was requested"].
Proof. reflexivity. Qed.

(** count = 200 against a 90-byte array: exactly 90 bytes are published. *)
Lemma handle_log_data_clamps_count_witness :
  (LOG_DATA.max_size packet_200_of_90 < LOG_DATA.count packet_200_of_90)%N /\
  exists msg : LogData.t,
    published_data (trace (run (handle_log_data clock packet_200_of_90) scenario_data_goal)) =
      [msg] /\
    LogData.offset msg = 4096%N /\
    N.of_nat (List.length (LogData.data msg)) = 90%N.
Proof.
  split; [reflexivity|].
  destruct (handle_log_data_clamps_count scenario_data_goal clock packet_200_of_90)
    as (msg & _ & Hp & _ & Ho & Hbig & _).
  exists msg. split; [exact Hp|]. split; [exact Ho|].
  destruct (Hbig eq_refl) as [_ Hlen]. exact Hlen.
Defined.

Lemma logListItems_always_empty_witness :
  reachable (run (dispatch Ev_data_goal) scenario_data_over_cancelled_list) /\
  logListItems (run (dispatch Ev_data_goal) scenario_data_over_cancelled_list) = [].
Proof.
  assert (R : reachable (run (dispatch Ev_data_goal) scenario_data_over_cancelled_list))
    by (apply reachable_event; apply reachable_initial).
  split; [exact R|].
  apply (proj2 (proj2 logListItems_always_empty) _ R).
Defined.

(** C8 on the data side: [logRequested] never looks at the goal it took.
    With a null goal and a list preemption pending it logs nothing and
    reports both operations preempted. *)
Theorem logRequested_null_goal_still_reports :
  fst (acceptNewGoal (get_log_action_srv scenario_null_data_goal)) = None /\
  result logRequested scenario_null_data_goal = Returns tt /\
  ros_logs (trace (run logRequested scenario_null_data_goal)) = [] /\
  list_reports (trace (run logRequested scenario_null_data_goal)) =
    [(GetLogList.mkResult false, "Another log list request was accepted"%string)] /\
  data_reports (trace (run logRequested scenario_null_data_goal)) =
    [(GetLog.mkResult false, "Log list was requested"%string)].
Proof.
  repeat split.
Qed.

(** * Further properties of the callbacks *)

Lemma published_entries_app (a b : list Effect) :
  published_entries (a ++ b) = published_entries a ++ published_entries b.
Proof. apply flat_map_app. Qed.

#[export] Hint Rewrite published_entries_app : trace_db.

Ltac trace_simpl := cbn; autorewrite with trace_db; cbn; autorewrite with trace_db.

Section Callbacks.
Context {LogListItem ListSrv DataSrv Link : Type}.
Context {list_host : SimpleActionServer ListSrv GetLogList.Goal GetLogList.Result}.
Context {data_host : SimpleActionServer DataSrv GetLog.Goal GetLog.Result}.
Context {conn : MAVConnInterface Link}.

Local Abbreviation Plugin := (LogTransferPlugin LogListItem ListSrv DataSrv Link).

(** ** What every callback does and does not do *)

(** X1: no callback lets an exception out: every [send_message] sits inside a
    [try] that catches the link's [std::length_error]. *)
Theorem dispatch_always_returns :
  forall (ev : Event) (p : Plugin), result (dispatch ev) p = Returns tt.
Proof.
  intros ev p. destruct ev; run_cb; reflexivity.
Qed.

(** X2: the wire commands of one event: each service call hands exactly its
    own command to the link, a list goal that is not null hands over exactly
    one LOG_REQUEST_END, and packets, data goals, null list goals and the
    preempt hooks send nothing.  The link's answer does not matter. *)
Theorem dispatch_commands :
  forall (ev : Event) (p : Plugin),
    sent_messages (trace (run (dispatch ev) p)) =
      sent_messages (trace p) ++ expected_commands ev p.
Proof.
  intros ev p. unfold expected_commands.
  destruct ev; run_cb; trace_simpl; reflexivity.
Qed.

(** X3: each LOG_ENTRY packet is published once, field by field, with
    [time_utc] as whole seconds; each LOG_DATA packet is published once with
    the first min(count, capacity) bytes; no other event publishes. *)
Theorem dispatch_publications :
  forall (ev : Event) (p : Plugin),
    published_entries (trace (run (dispatch ev) p)) =
      published_entries (trace p) ++ expected_entries ev /\
    published_data (trace (run (dispatch ev) p)) =
      published_data (trace p) ++ expected_data ev.
Proof.
  intros ev p.
  destruct ev; try (run_cb; trace_simpl; split; reflexivity).
  unfold run, dispatch, handle_log_data, log_data_pub_publish, modify, expected_data.
  trace_simpl. split; [reflexivity|].
  unfold published_data. cbn. autorewrite with trace_db. cbn.
  do 3 f_equal.
  destruct (LOG_DATA.max_size ld <? LOG_DATA.count ld)%N eqn:E.
  - apply N.ltb_lt in E. rewrite N.min_r by lia. reflexivity.
  - apply N.ltb_ge in E. rewrite N.min_l by lia. reflexivity.
Qed.

(** The target the commands are addressed to is never changed. *)
Lemma dispatch_m_uas (ev : Event) (p : Plugin) :
  m_uas (run (dispatch ev) p) = m_uas p.
Proof.
  destruct ev; run_cb; reflexivity.
Qed.

Lemma dispatch_sent_addressed (ev : Event) (p : Plugin) :
  exists ms,
    sent_messages (trace (run (dispatch ev) p)) = sent_messages (trace p) ++ ms /\
    Forall (fun m => target_of m = (get_tgt_system (m_uas p), get_tgt_component (m_uas p)))
           ms.
Proof.
  destruct ev; run_cb; trace_simpl;
    (first [ eexists; split; [reflexivity|]
           | exists []; split; [symmetry; apply app_nil_r|] ]);
    repeat constructor.
Qed.

(** X4: over any run, every command that was handed to the link is addressed
    to the target system and component of the UAS. *)
Theorem reachable_commands_addressed :
  forall p : Plugin,
    reachable p ->
    Forall (fun m => target_of m = (get_tgt_system (m_uas p), get_tgt_component (m_uas p)))
           (sent_messages (trace p)).
Proof.
  induction 1 as [ls ds uas l | ev p Hp IH | ls ds l p Hp IH].
  - constructor.
  - destruct (dispatch_sent_addressed ev p) as (ms & Hs & Hm).
    rewrite Hs, dispatch_m_uas. apply Forall_app. split; assumption.
  - exact IH.
Qed.

(** X5: a callback that has no command to send leaves the link alone. *)
Theorem dispatch_link_untouched :
  forall (ev : Event) (p : Plugin),
    expected_commands ev p = [] ->
    fcu_link (run (dispatch ev) p) = fcu_link p.
Proof.
  intros ev p. unfold expected_commands.
  destruct ev; try discriminate; intros H; try (run_cb; reflexivity).
  unfold run, dispatch, logListRequested, bind, list_acceptNewGoal.
  destruct (acceptNewGoal (get_log_list_action_srv p)) as [[g|] ls]; cbn in *.
  - discriminate H.
  - reflexivity.
Qed.

(** One step appends to the trace, and what it appends holds at most one
    report per server, each saying [success = false] with one of the texts
    of the source. *)
Lemma dispatch_trace (ev : Event) (p : Plugin) :
  exists evs,
    trace (run (dispatch ev) p) = trace p ++ evs /\
    Forall report_effect_ok evs /\
    (List.length (data_reports evs) <= 1)%nat /\
    (List.length (list_reports evs) <= 1)%nat.
Proof.
  destruct ev; run_cb; rewrite <- ?app_assoc;
    (first [ eexists; split; [reflexivity|]
           | exists []; split; [symmetry; apply app_nil_r|] ]);
    unfold report_effect_ok, data_report_ok, list_report_ok; cbn;
    repeat split; repeat (apply Forall_cons || apply Forall_nil);
    cbn; auto; lia.
Qed.

Lemma reports_of_effects (evs : list Effect) :
  Forall report_effect_ok evs ->
  Forall data_report_ok (data_reports evs) /\ Forall list_report_ok (list_reports evs).
Proof.
  induction 1 as [| e evs He _ [IHd IHl]]; [split; constructor|].
  destruct e; cbn in *; auto.
Qed.

Lemma dispatch_reports (ev : Event) (p : Plugin) :
  exists dl ll,
    data_reports (trace (run (dispatch ev) p)) = data_reports (trace p) ++ dl /\
    list_reports (trace (run (dispatch ev) p)) = list_reports (trace p) ++ ll /\
    Forall data_report_ok dl /\ Forall list_report_ok ll /\
    (List.length dl <= 1)%nat /\ (List.length ll <= 1)%nat.
Proof.
  destruct (dispatch_trace ev p) as (evs & Ht & Hok & Ld & Ll).
  destruct (reports_of_effects evs Hok) as [Fd Fl].
  exists (data_reports evs), (list_reports evs).
  rewrite Ht, data_reports_app, list_reports_app. auto 10.
Qed.



(** ** stopLogTransfer and the services *)

Lemma stopLogTransfer_run (p : Plugin) :
  stopLogTransfer p =
    let msg := LOG_REQUEST_END (get_tgt_system (m_uas p)) (get_tgt_component (m_uas p)) in
    match link_send msg (fcu_link p) with
    | (Sent, l) => (Returns true, emit (Send_message msg) (set_link l p))
    | (LengthError, l) =>
        (Returns false,
         emit (Ros_log ERROR "Failed to send LOG_REQUEST_END message")
              (emit (Send_message msg) (set_link l p)))
    end.
Proof.
  unfold_cb; cbn. destruct (link_send _ (fcu_link p)) as [[|] l]; reflexivity.
Qed.

(** X8: a failed send is silent in [log_request_list_cb] and
    [log_request_data_cb], which log nothing in any case, while
    [log_request_end_cb] logs one error, "Failed to send LOG_REQUEST_END
    message", exactly when the link throws. *)
Theorem service_failure_logging :
  forall p : Plugin,
    (forall req : LogRequestList.Request,
        ros_logs (trace (run (log_request_list_cb req) p)) = ros_logs (trace p)) /\
    (forall req : LogRequestData.Request,
        ros_logs (trace (run (log_request_data_cb req) p)) = ros_logs (trace p)) /\
    (forall req : LogRequestEnd.Request,
        ros_logs (trace (run (log_request_end_cb req) p)) =
          ros_logs (trace p) ++
          match fst (link_send (LOG_REQUEST_END (get_tgt_system (m_uas p))
                                  (get_tgt_component (m_uas p))) (fcu_link p)) with
          | Sent => []
          | LengthError => [(ERROR, "Failed to send LOG_REQUEST_END message"%string)]
          end).
Proof.
  intros p. repeat apply conj; intros req; unfold_cb; cbn;
    destruct (link_send _ (fcu_link p)) as [[|] l]; trace_simpl; reflexivity.
Qed.

(** ** The list goal callback on a goal that is not null *)

(** X9: what [logListRequested] does with a goal that is not null, whatever the
    link answers: it returns; the flag is [Idle]; the data operation is
    reported preempted exactly if the data server was active, the list
    operation exactly if the accepted goal is preempt-requested; an error
    is logged exactly if LOG_REQUEST_END could not be sent. *)
Theorem logListRequested_accepted_goal :
  forall (p : Plugin) (goal : GetLogList.Goal) (ls : ListSrv),
    acceptNewGoal (get_log_list_action_srv p) = (Some goal, ls) ->
    let msg := LOG_REQUEST_END (get_tgt_system (m_uas p)) (get_tgt_component (m_uas p)) in
    let p' := run logListRequested p in
    result logListRequested p = Returns tt /\
    state p' = Idle /\
    data_reports (trace p') =
      data_reports (trace p) ++
      (if isActive (get_log_action_srv p)
       then [(GetLog.mkResult false, "Log list was requested"%string)] else []) /\
    list_reports (trace p') =
      list_reports (trace p) ++
      (if isPreemptRequested ls
       then [(GetLogList.mkResult false, "Log list request was preempted"%string)] else []) /\
    ros_logs (trace p') =
      ros_logs (trace p) ++
      (match fst (link_send msg (fcu_link p)) with
       | Sent => []
       | LengthError => [(ERROR, "Failed to send LOG_REQUEST_END message"%string)]
       end) /\
    fcu_link p' = snd (link_send msg (fcu_link p)).
Proof.
  intros p goal ls Hacc msg p'. subst msg p'.
  unfold run, result, logListRequested, bind, list_acceptNewGoal.
  rewrite Hacc, stopLogTransfer_run. cbn.
  unfold data_isActive, list_isPreemptRequested, data_setPreempted, list_setPreempted,
    gets, modify, ret.
  destruct (link_send _ (fcu_link p)) as [[|] l]; cbn;
    destruct (isActive (get_log_action_srv p)); cbn;
    destruct (isPreemptRequested ls); trace_simpl; repeat split.
Qed.

(** X10: after [logListRequested] has taken a goal that is not null, the data
    server is not active: an active data goal has been ended, and nothing
    in the callback starts one. *)
Theorem logListRequested_leaves_data_inactive :
  forall (p : Plugin) (goal : GetLogList.Goal) (ls : ListSrv),
    acceptNewGoal (get_log_list_action_srv p) = (Some goal, ls) ->
    isActive (get_log_action_srv (run logListRequested p)) = false.
Proof.
  intros p goal ls Hacc.
  unfold run, logListRequested, bind, list_acceptNewGoal.
  rewrite Hacc, stopLogTransfer_run. cbn.
  unfold data_isActive, list_isPreemptRequested, data_setPreempted, list_setPreempted,
    gets, modify, ret.
  destruct (link_send _ (fcu_link p)) as [[|] l]; cbn;
    destruct (isActive (get_log_action_srv p)) eqn:Hact; cbn;
    destruct (isPreemptRequested ls); cbn;
    auto using setPreempted_not_active.
Qed.

(** X11: when the accepted list goal is preempt-requested while a data goal is
    active, the two reports are the last two calls of the callback, the data
    operation first and the list operation second. *)
Theorem logListRequested_reports_in_order :
  forall (p : Plugin) (goal : GetLogList.Goal) (ls : ListSrv),
    acceptNewGoal (get_log_list_action_srv p) = (Some goal, ls) ->
    isActive (get_log_action_srv p) = true ->
    isPreemptRequested ls = true ->
    exists before,
      trace (run logListRequested p) =
        trace p ++ before ++
        [Data_setPreempted (GetLog.mkResult false) "Log list was requested";
         List_setPreempted (GetLogList.mkResult false) "Log list request was preempted"] /\
      data_reports before = [] /\ list_reports before = [].
Proof.
  intros p goal ls Hacc Hact Hpre.
  unfold run, logListRequested, bind, list_acceptNewGoal.
  rewrite Hacc, stopLogTransfer_run. cbn.
  unfold data_isActive, list_isPreemptRequested, data_setPreempted, list_setPreempted,
    gets, modify, ret.
  set (msg := LOG_REQUEST_END (get_tgt_system (m_uas p)) (get_tgt_component (m_uas p))).
  destruct (link_send msg (fcu_link p)) as [[|] l];
    [ exists [Send_message msg]
    | exists [Send_message msg; Ros_log ERROR "Failed to send LOG_REQUEST_END message"] ];
    cbn; rewrite Hact; cbn; rewrite Hpre; cbn; rewrite <- !app_assoc; cbn;
    repeat split.
Qed.

(** ** The data goal callback with a list preemption pending *)

(** X12: in the branch where [logRequested] finds a list preemption pending,
    neither server is active when it returns: the list goal has been ended,
    and so has the data goal that was just accepted, if the server reported
    it active. *)
Theorem logRequested_pending_leaves_both_inactive :
  forall p : Plugin,
    isPreemptRequested (get_log_list_action_srv p) = true ->
    isActive (get_log_list_action_srv (run logRequested p)) = false /\
    isActive (get_log_action_srv (run logRequested p)) = false.
Proof.
  intros p Hpre.
  unfold run, logRequested, bind, data_acceptNewGoal,
    list_isPreemptRequested, list_setPreempted, data_isActive, data_setPreempted,
    gets, modify, ret.
  destruct (acceptNewGoal (get_log_action_srv p)) as [g ds]. cbn.
  rewrite Hpre. cbn.
  destruct (isActive ds) eqn:Hact; cbn; auto using setPreempted_not_active.
Qed.

(** ** Payload of a published data chunk *)

(** X13: the bytes [handle_log_data] publishes are a prefix of the packet's
    array, as many as the smaller of [count] and the array's capacity (so a
    packet with [count = 0] is published with no bytes). *)
Theorem handle_log_data_payload_prefix :
  forall (p : Plugin) (now : Time.t) (ld : LOG_DATA.t),
  exists (msg : LogData.t) (rest : list byte),
    published_data (trace (run (handle_log_data now ld) p)) =
      published_data (trace p) ++ [msg] /\
    LOG_DATA.data ld = LogData.data msg ++ rest /\
    N.of_nat (List.length (LogData.data msg)) =
      N.min (LOG_DATA.count ld) (LOG_DATA.max_size ld).
Proof.
  intros p now ld.
  unfold run, handle_log_data, log_data_pub_publish, modify. cbn.
  rewrite published_data_app.
  set (n := if (LOG_DATA.max_size ld <? LOG_DATA.count ld)%N
            then LOG_DATA.max_size ld else LOG_DATA.count ld).
  assert (Hn : n = N.min (LOG_DATA.count ld) (LOG_DATA.max_size ld)).
  { subst n. destruct (LOG_DATA.max_size ld <? LOG_DATA.count ld)%N eqn:E.
    - apply N.ltb_lt in E. lia.
    - apply N.ltb_ge in E. lia. }
  eexists. exists (skipn (N.to_nat n) (LOG_DATA.data ld)).
  split; [reflexivity|]. cbn [LogData.data].
  split; [symmetry; apply firstn_skipn|].
  rewrite length_firstn, <- Hn. unfold LOG_DATA.max_size in *. lia.
Qed.

(** ** Two list goals in a row *)

Lemma logListRequested_data_side (p : Plugin) (goal : GetLogList.Goal) (ls : ListSrv) :
  acceptNewGoal (get_log_list_action_srv p) = (Some goal, ls) ->
  isActive (get_log_action_srv (run logListRequested p)) = false /\
  data_reports (trace (run logListRequested p)) =
    data_reports (trace p) ++
    (if isActive (get_log_action_srv p)
     then [(GetLog.mkResult false, "Log list was requested"%string)] else []).
Proof.
  intros Hacc.
  unfold run, logListRequested, bind, list_acceptNewGoal.
  rewrite Hacc, stopLogTransfer_run. cbn.
  unfold data_isActive, list_isPreemptRequested, data_setPreempted, list_setPreempted,
    gets, modify, ret.
  destruct (link_send _ (fcu_link p)) as [[|] l]; cbn;
    destruct (isActive (get_log_action_srv p)) eqn:Hact; cbn;
    destruct (isPreemptRequested ls); trace_simpl;
    auto using setPreempted_not_active.
Qed.

(** X15: a second list goal, accepted after the first with the data server left
    as the first callback left it (the list server and the link may have
    moved on), makes no further report on the data operation: a data goal
    is ended once. *)
Theorem logListRequested_twice_reports_once :
  forall (p : Plugin) (goal goal2 : GetLogList.Goal) (ls ls_next ls2 : ListSrv) (l_next : Link),
    acceptNewGoal (get_log_list_action_srv p) = (Some goal, ls) ->
    acceptNewGoal ls_next = (Some goal2, ls2) ->
    let p1 := run logListRequested p in
    let p2 := environment ls_next (get_log_action_srv p1) l_next p1 in
    data_reports (trace (run logListRequested p2)) = data_reports (trace p1).
Proof.
  intros p goal goal2 ls ls_next ls2 l_next Hacc Hacc2 p1 p2.
  destruct (logListRequested_data_side p goal ls Hacc) as [Hin _].
  destruct (logListRequested_data_side p2 goal2 ls2 Hacc2) as [_ Hrep].
  rewrite Hrep.
  change (get_log_action_srv p2) with (get_log_action_srv p1).
  change (trace p2) with (trace p1).
  fold p1 in Hin. rewrite Hin. apply app_nil_r.
Qed.
(** ** The session flag and the two operations over whole runs *)


End Callbacks.

(** * The further properties on the reference collaborators *)

Lemma reachable_commands_addressed_witness :
  reachable (run (dispatch Ev_list_goal) scenario_list_over_data) /\
  sent_messages (trace (run (dispatch Ev_list_goal) scenario_list_over_data)) =
    [LOG_REQUEST_END 1 1] /\
  Forall (fun m => target_of m = (1%N, 1%N))
         (sent_messages (trace (run (dispatch Ev_list_goal) scenario_list_over_data))).
Proof.
  assert (R : reachable (run (dispatch Ev_list_goal) scenario_list_over_data))
    by (apply reachable_event; apply reachable_initial).
  split; [exact R|]. split; [reflexivity|].
  exact (reachable_commands_addressed _ R).
Defined.

Lemma dispatch_link_untouched_witness :
  expected_commands Ev_data_goal scenario_data_over_cancelled_list = [] /\
  fcu_link (run (dispatch Ev_data_goal) scenario_data_over_cancelled_list) = open_link.
Proof.
  split; [reflexivity|].
  exact (dispatch_link_untouched Ev_data_goal scenario_data_over_cancelled_list eq_refl).
Defined.


(** The link is full: the error is logged and the data goal is ended all
    the same. *)
Lemma logListRequested_accepted_goal_witness :
  acceptNewGoal (get_log_list_action_srv scenario_list_over_data_link_full) =
    (Some (GetLogList.mkGoal 0 5), active_server (GetLogList.mkGoal 0 5) false) /\
  state (run logListRequested scenario_list_over_data_link_full) = Idle /\
  data_reports (trace (run logListRequested scenario_list_over_data_link_full)) =
    [(GetLog.mkResult false, "Log list was requested"%string)] /\
  ros_logs (trace (run logListRequested scenario_list_over_data_link_full)) =
    [(ERROR, "Failed to send LOG_REQUEST_END message"%string)].
Proof.
  split; [reflexivity|].
  destruct (logListRequested_accepted_goal scenario_list_over_data_link_full
              (GetLogList.mkGoal 0 5) (active_server (GetLogList.mkGoal 0 5) false))
    as (_ & Hs & Hd & _ & Hl & _); [reflexivity|].
  repeat split; assumption.
Defined.

Lemma logListRequested_leaves_data_inactive_witness :
  acceptNewGoal (get_log_list_action_srv scenario_list_over_data) =
    (Some (GetLogList.mkGoal 0 5), active_server (GetLogList.mkGoal 0 5) false) /\
  isActive (get_log_action_srv scenario_list_over_data) = true /\
  isActive (get_log_action_srv (run logListRequested scenario_list_over_data)) = false.
Proof.
  split; [reflexivity|]. split; [reflexivity|].
  apply (logListRequested_leaves_data_inactive scenario_list_over_data
           (GetLogList.mkGoal 0 5) (active_server (GetLogList.mkGoal 0 5) false)).
  reflexivity.
Defined.

Lemma logListRequested_reports_in_order_witness :
  acceptNewGoal (get_log_list_action_srv scenario_superseded_list_over_data) =
    (Some (GetLogList.mkGoal 0 5), active_server (GetLogList.mkGoal 0 5) true) /\
  isActive (get_log_action_srv scenario_superseded_list_over_data) = true /\
  isPreemptRequested (active_server (GetLogList.mkGoal 0 5) true : RefListSrv) = true /\
  exists before,
    trace (run logListRequested scenario_superseded_list_over_data) =
      trace scenario_superseded_list_over_data ++ before ++
      [Data_setPreempted (GetLog.mkResult false) "Log list was requested";
       List_setPreempted (GetLogList.mkResult false) "Log list request was preempted"] /\
    data_reports before = [] /\ list_reports before = [].
Proof.
  split; [reflexivity|]. split; [reflexivity|]. split; [reflexivity|].
  apply (logListRequested_reports_in_order scenario_superseded_list_over_data
           (GetLogList.mkGoal 0 5) (active_server (GetLogList.mkGoal 0 5) true));
    reflexivity.
Defined.

Lemma logRequested_pending_leaves_both_inactive_witness :
  isPreemptRequested (get_log_list_action_srv scenario_data_over_cancelled_list) = true /\
  isActive (get_log_list_action_srv (run logRequested scenario_data_over_cancelled_list)) =
    false /\
  isActive (get_log_action_srv (run logRequested scenario_data_over_cancelled_list)) = false.
Proof.
  split; [reflexivity|].
  apply (logRequested_pending_leaves_both_inactive scenario_data_over_cancelled_list).
  reflexivity.
Defined.

Lemma logListRequested_null_goal_witness :
  acceptNewGoal (get_log_list_action_srv scenario_null_list_goal) =
    (None, idle_server) /\
  state (run logListRequested scenario_null_list_goal) = Idle /\
  trace (run logListRequested scenario_null_list_goal) =
    [Ros_log WARN "Null goal received for get_log_list"].
Proof.
  split; [reflexivity|].
  destruct (logListRequested_null_goal scenario_null_list_goal idle_server)
    as (_ & Hs & Ht); [reflexivity|].
  split; assumption.
Defined.

Lemma logListRequested_twice_reports_once_witness :
  acceptNewGoal (get_log_list_action_srv scenario_list_over_data) =
    (Some (GetLogList.mkGoal 0 5), active_server (GetLogList.mkGoal 0 5) false) /\
  acceptNewGoal (pending_server (GetLogList.mkGoal 5 9) false : RefListSrv) =
    (Some (GetLogList.mkGoal 5 9), active_server (GetLogList.mkGoal 5 9) false) /\
  data_reports (trace (run logListRequested scenario_second_list_goal)) =
    data_reports (trace (run logListRequested scenario_list_over_data)).
Proof.
  split; [reflexivity|]. split; [reflexivity|].
  apply (logListRequested_twice_reports_once scenario_list_over_data
           (GetLogList.mkGoal 0 5) (GetLogList.mkGoal 5 9)
           (active_server (GetLogList.mkGoal 0 5) false)
           (pending_server (GetLogList.mkGoal 5 9) false)
           (active_server (GetLogList.mkGoal 5 9) false) open_link);
    reflexivity.
Defined.



Example both_operations_active_flag_Idle :
  state scenario_list_then_data = Idle /\
  sent_messages (trace scenario_list_then_data) = [LOG_REQUEST_END 1 1] /\
  data_reports (trace scenario_list_then_data) = [] /\
  list_reports (trace scenario_list_then_data) = [].
Proof. repeat split. Qed.
